(** * Rankine cycle calculator: the window of [P2/Rankine_app_MVC.py]
      and the cycle engine it delegates to.

    The first part embeds the [MainWindow] class of the source file: its
    constructor, the signal/slot table built by [AssignSlots], the canvas
    callback registered by [MakeCanvas] and the six thin slot methods that
    forward to the controller.  The controller class [rankineController]
    lives in [Rankine_Classes_MVC], which is not part of the sources at
    hand; it enters as an interface.

    Floats are modelled by the rationals: every finite float is a
    rational, and the operations used here (comparison, formatting with
    two decimals) are exact on rationals. *)

From Stdlib Require Import ZArith QArith Qround Qabs Qminmax List String Ascii Bool Lia Lqa.
From Stdlib Require Import DecimalString.
Import ListNotations.

Open Scope string_scope.

(** ** Python values and errors *)

(** What an attribute such as [event.xdata] can hold: [None] or a float. *)
Inductive PyVal : Type :=
| PyNone
| PyFloat (q : Q).

Inductive PyError : Type :=
| AttributeError (attr : string)
| TypeError.

(** A computation over a mutable object of type [St] that may raise. *)
Definition Py (St A : Type) : Type := St -> PyError + (A * St).

Definition ret {St A} (a : A) : Py St A := fun w => inr (a, w).

Definition bind {St A B} (c : Py St A) (k : A -> Py St B) : Py St B :=
  fun w => match c w with
           | inl e => inl e
           | inr (a, w') => k a w'
           end.

Definition raise {St A} (e : PyError) : Py St A := fun _ => inl e.
Definition gets {St A} (f : St -> A) : Py St A := fun w => inr (f w, w).
Definition modify {St} (f : St -> St) : Py St unit := fun w => inr (tt, f w).

Declare Scope py_scope.
Delimit Scope py_scope with py.
Notation "x <- c ;; k" := (bind c (fun x => k))
  (at level 61, c at next level, right associativity) : py_scope.
Notation "c ;; k" := (bind c (fun _ => k))
  (at level 61, right associativity) : py_scope.

(** ** ['{:.2f}'.format(x)] *)

(** Nearest integer to a non-negative rational, ties to the even one. *)
Definition round_half_even (q : Q) : Z :=
  let f := Qfloor q in
  match (q - inject_Z f ?= 1 # 2)%Q with
  | Lt => f
  | Gt => (f + 1)%Z
  | Eq => if Z.even f then f else (f + 1)%Z
  end.

Definition decimal (n : Z) : string := NilEmpty.string_of_uint (N.to_uint (Z.to_N n)).

Definition two_digits (n : Z) : string :=
  if (n <? 10)%Z then "0" ++ decimal n else decimal n.

(** Fixed-point formatting with two decimals; the sign is that of the
    value, so a small negative number prints as [-0.00]. *)
Definition format_2f (q : Q) : string :=
  let n := round_half_even (Qabs q * 100)%Q in
  (if Qle_bool 0 q then "" else "-")
    ++ decimal (n / 100)%Z ++ "." ++ two_digits (n mod 100)%Z.

(** Formatting [None] with a float format spec raises [TypeError]. *)
Definition format_spec_2f (v : PyVal) : PyError + string :=
  match v with
  | PyNone => inl TypeError
  | PyFloat q => inr (format_2f q)
  end.

(** ** Widgets *)

(** The values held by the input widgets that the window hands to the
    controller ([input_widgets]).  Their initial values come from
    [setupUi], generated by Qt Designer. *)
Record Widgets : Type := {
  rb_SI : bool;                        (* rb_SI.isChecked() *)
  le_PHigh : string;
  le_PLow : string;
  le_TurbineInletCondition : string;
  rdo_Quality : bool;
  le_TurbineEff : string;
  cmb_XAxis : nat;                     (* currentIndex *)
  cmb_YAxis : nat;
  chk_logX : bool;
  chk_logY : bool
}.

Definition set_rb_SI (b : bool) (u : Widgets) : Widgets :=
  {| rb_SI := b; le_PHigh := le_PHigh u; le_PLow := le_PLow u;
     le_TurbineInletCondition := le_TurbineInletCondition u;
     rdo_Quality := rdo_Quality u; le_TurbineEff := le_TurbineEff u;
     cmb_XAxis := cmb_XAxis u; cmb_YAxis := cmb_YAxis u;
     chk_logX := chk_logX u; chk_logY := chk_logY u |}.

Definition set_le_PHigh (s : string) (u : Widgets) : Widgets :=
  {| rb_SI := rb_SI u; le_PHigh := s; le_PLow := le_PLow u;
     le_TurbineInletCondition := le_TurbineInletCondition u;
     rdo_Quality := rdo_Quality u; le_TurbineEff := le_TurbineEff u;
     cmb_XAxis := cmb_XAxis u; cmb_YAxis := cmb_YAxis u;
     chk_logX := chk_logX u; chk_logY := chk_logY u |}.

Definition set_le_PLow (s : string) (u : Widgets) : Widgets :=
  {| rb_SI := rb_SI u; le_PHigh := le_PHigh u; le_PLow := s;
     le_TurbineInletCondition := le_TurbineInletCondition u;
     rdo_Quality := rdo_Quality u; le_TurbineEff := le_TurbineEff u;
     cmb_XAxis := cmb_XAxis u; cmb_YAxis := cmb_YAxis u;
     chk_logX := chk_logX u; chk_logY := chk_logY u |}.

Definition set_rdo_Quality (b : bool) (u : Widgets) : Widgets :=
  {| rb_SI := rb_SI u; le_PHigh := le_PHigh u; le_PLow := le_PLow u;
     le_TurbineInletCondition := le_TurbineInletCondition u;
     rdo_Quality := b; le_TurbineEff := le_TurbineEff u;
     cmb_XAxis := cmb_XAxis u; cmb_YAxis := cmb_YAxis u;
     chk_logX := chk_logX u; chk_logY := chk_logY u |}.

Definition set_cmb_XAxis (i : nat) (u : Widgets) : Widgets :=
  {| rb_SI := rb_SI u; le_PHigh := le_PHigh u; le_PLow := le_PLow u;
     le_TurbineInletCondition := le_TurbineInletCondition u;
     rdo_Quality := rdo_Quality u; le_TurbineEff := le_TurbineEff u;
     cmb_XAxis := i; cmb_YAxis := cmb_YAxis u;
     chk_logX := chk_logX u; chk_logY := chk_logY u |}.

Definition set_cmb_YAxis (i : nat) (u : Widgets) : Widgets :=
  {| rb_SI := rb_SI u; le_PHigh := le_PHigh u; le_PLow := le_PLow u;
     le_TurbineInletCondition := le_TurbineInletCondition u;
     rdo_Quality := rdo_Quality u; le_TurbineEff := le_TurbineEff u;
     cmb_XAxis := cmb_XAxis u; cmb_YAxis := i;
     chk_logX := chk_logX u; chk_logY := chk_logY u |}.

Definition set_chk_logX (b : bool) (u : Widgets) : Widgets :=
  {| rb_SI := rb_SI u; le_PHigh := le_PHigh u; le_PLow := le_PLow u;
     le_TurbineInletCondition := le_TurbineInletCondition u;
     rdo_Quality := rdo_Quality u; le_TurbineEff := le_TurbineEff u;
     cmb_XAxis := cmb_XAxis u; cmb_YAxis := cmb_YAxis u;
     chk_logX := b; chk_logY := chk_logY u |}.

Definition set_chk_logY (b : bool) (u : Widgets) : Widgets :=
  {| rb_SI := rb_SI u; le_PHigh := le_PHigh u; le_PLow := le_PLow u;
     le_TurbineInletCondition := le_TurbineInletCondition u;
     rdo_Quality := rdo_Quality u; le_TurbineEff := le_TurbineEff u;
     cmb_XAxis := cmb_XAxis u; cmb_YAxis := cmb_YAxis u;
     chk_logX := chk_logX u; chk_logY := b |}.

(** ** The controller interface *)

(** The methods of [rankineController] that the window calls.  The
    controller keeps references to the window's widgets, so each method
    sees the current widget values and may rewrite them, next to its own
    state (model, view and display widgets).  Such a rewrite is taken to
    raise none of the signals connected by the window ([setText] raises
    no [editingFinished]). *)
Class RankineController (C : Type) : Type := {
  rankineController : Widgets -> C;
  updateModel : Widgets -> C -> Widgets * C;
  selectQualityOrTHigh : Widgets -> C -> Widgets * C;
  updatePlot : Widgets -> C -> Widgets * C;
  updateUnits : Widgets -> C -> Widgets * C;
  setNewPHigh : Widgets -> C -> Widgets * C;
  setNewPLow : Widgets -> C -> Widgets * C
}.

Inductive RCMethod : Type :=
| RC_updateModel | RC_selectQualityOrTHigh | RC_updatePlot
| RC_updateUnits | RC_setNewPHigh | RC_setNewPLow.

(** ** Signals, slots and the observable trace *)

Inductive Signal : Type :=
| btn_Calculate_clicked
| rdo_Quality_clicked
| rdo_THigh_clicked
| le_PHigh_editingFinished
| le_PLow_editingFinished
| rb_SI_clicked
| rb_English_clicked
| cmb_XAxis_currentIndexChanged
| cmb_YAxis_currentIndexChanged
| chk_logX_toggled
| chk_logY_toggled.

Inductive Slot : Type :=
| slot_Calculate
| slot_SelectQualityOrTHigh
| slot_SetPlotVariables
| slot_SetUnits
| slot_setNewPHigh
| slot_setNewPLow.

Inductive Callback : Type := cb_mouseMoveEvent_Canvas.

Definition Signal_eqb (a b : Signal) : bool :=
  match a, b with
  | btn_Calculate_clicked, btn_Calculate_clicked
  | rdo_Quality_clicked, rdo_Quality_clicked
  | rdo_THigh_clicked, rdo_THigh_clicked
  | le_PHigh_editingFinished, le_PHigh_editingFinished
  | le_PLow_editingFinished, le_PLow_editingFinished
  | rb_SI_clicked, rb_SI_clicked
  | rb_English_clicked, rb_English_clicked
  | cmb_XAxis_currentIndexChanged, cmb_XAxis_currentIndexChanged
  | cmb_YAxis_currentIndexChanged, cmb_YAxis_currentIndexChanged
  | chk_logX_toggled, chk_logX_toggled
  | chk_logY_toggled, chk_logY_toggled => true
  | _, _ => false
  end.

(** What an observer of the window sees happen, in order. *)
Inductive Event : Type :=
| EvNewController
| EvCall (m : RCMethod)
| EvSetWindowTitle (s : string)
| EvShow.

Record MouseEvent : Type := { xdata : PyVal; ydata : PyVal }.

(** ** The window *)

Section Window.

Context {C : Type} `{ctrl : RankineController C}.

(** The attributes of a [MainWindow] object.  An attribute that has not
    been assigned yet is [None]; reading it raises [AttributeError]. *)
Record MainWindow : Type := {
  ui : Widgets;
  connections : list (Signal * Slot);        (* signal.connect(slot), in order *)
  mpl_callbacks : list (string * Callback);  (* canvas.mpl_connect(name, f) *)
  RC : option C;
  oldXData : option PyVal;
  oldYData : option PyVal;
  windowTitle : string;
  visible : bool;
  trace : list Event
}.

Definition with_ui (u : Widgets) (w : MainWindow) : MainWindow :=
  {| ui := u; connections := connections w; mpl_callbacks := mpl_callbacks w;
     RC := RC w; oldXData := oldXData w; oldYData := oldYData w;
     windowTitle := windowTitle w; visible := visible w; trace := trace w |}.

Definition with_connections (l : list (Signal * Slot)) (w : MainWindow) : MainWindow :=
  {| ui := ui w; connections := l; mpl_callbacks := mpl_callbacks w;
     RC := RC w; oldXData := oldXData w; oldYData := oldYData w;
     windowTitle := windowTitle w; visible := visible w; trace := trace w |}.

Definition with_mpl_callbacks (l : list (string * Callback)) (w : MainWindow) : MainWindow :=
  {| ui := ui w; connections := connections w; mpl_callbacks := l;
     RC := RC w; oldXData := oldXData w; oldYData := oldYData w;
     windowTitle := windowTitle w; visible := visible w; trace := trace w |}.

Definition with_RC (c : C) (w : MainWindow) : MainWindow :=
  {| ui := ui w; connections := connections w; mpl_callbacks := mpl_callbacks w;
     RC := Some c; oldXData := oldXData w; oldYData := oldYData w;
     windowTitle := windowTitle w; visible := visible w; trace := trace w |}.

Definition with_oldXData (v : PyVal) (w : MainWindow) : MainWindow :=
  {| ui := ui w; connections := connections w; mpl_callbacks := mpl_callbacks w;
     RC := RC w; oldXData := Some v; oldYData := oldYData w;
     windowTitle := windowTitle w; visible := visible w; trace := trace w |}.

Definition with_oldYData (v : PyVal) (w : MainWindow) : MainWindow :=
  {| ui := ui w; connections := connections w; mpl_callbacks := mpl_callbacks w;
     RC := RC w; oldXData := oldXData w; oldYData := Some v;
     windowTitle := windowTitle w; visible := visible w; trace := trace w |}.

Definition with_windowTitle (s : string) (w : MainWindow) : MainWindow :=
  {| ui := ui w; connections := connections w; mpl_callbacks := mpl_callbacks w;
     RC := RC w; oldXData := oldXData w; oldYData := oldYData w;
     windowTitle := s; visible := visible w; trace := trace w |}.

Definition with_visible (b : bool) (w : MainWindow) : MainWindow :=
  {| ui := ui w; connections := connections w; mpl_callbacks := mpl_callbacks w;
     RC := RC w; oldXData := oldXData w; oldYData := oldYData w;
     windowTitle := windowTitle w; visible := b; trace := trace w |}.

Definition log (e : Event) (w : MainWindow) : MainWindow :=
  {| ui := ui w; connections := connections w; mpl_callbacks := mpl_callbacks w;
     RC := RC w; oldXData := oldXData w; oldYData := oldYData w;
     windowTitle := windowTitle w; visible := visible w; trace := trace w ++ [e] |}.

(** The object before any line of [__init__] has run, with the widgets
    as [setupUi] will create them. *)
Definition blank (u0 : Widgets) : MainWindow :=
  {| ui := u0; connections := []; mpl_callbacks := []; RC := None;
     oldXData := None; oldYData := None; windowTitle := "";
     visible := false; trace := [] |}.

Local Open Scope py_scope.

Definition getattr {A} (name : string) (f : MainWindow -> option A) : Py MainWindow A :=
  fun w => match f w with
           | Some a => inr (a, w)
           | None => inl (AttributeError name)
           end.

Definition connect (sg : Signal) (sl : Slot) : Py MainWindow unit :=
  modify (fun w => with_connections (connections w ++ [(sg, sl)]) w).

Definition mpl_connect (name : string) (cb : Callback) : Py MainWindow unit :=
  modify (fun w => with_mpl_callbacks (mpl_callbacks w ++ [(name, cb)]) w).

Definition setWindowTitle (s : string) : Py MainWindow unit :=
  modify (fun w => log (EvSetWindowTitle s) (with_windowTitle s w)).

Definition show : Py MainWindow unit :=
  modify (fun w => log EvShow (with_visible true w)).

(** [self.RC.m()]: one call of a controller method on the current
    widget values. *)
Definition call_RC (tag : RCMethod) (m : Widgets -> C -> Widgets * C) : Py MainWindow unit :=
  c <- getattr "RC" RC ;;
  modify (fun w => let r := m (ui w) c in
                   log (EvCall tag) (with_RC (snd r) (with_ui (fst r) w))).

(** *** The slot methods (lines 96-136) *)

Definition Calculate : Py MainWindow unit := call_RC RC_updateModel updateModel.
Definition SelectQualityOrTHigh : Py MainWindow unit :=
  call_RC RC_selectQualityOrTHigh selectQualityOrTHigh.
Definition SetPlotVariables : Py MainWindow unit := call_RC RC_updatePlot updatePlot.
Definition SetUnits : Py MainWindow unit := call_RC RC_updateUnits updateUnits.
Definition MainWindow_setNewPHigh : Py MainWindow unit := call_RC RC_setNewPHigh setNewPHigh.
Definition MainWindow_setNewPLow : Py MainWindow unit := call_RC RC_setNewPLow setNewPLow.

(** *** [AssignSlots] (lines 56-71) *)
Definition AssignSlots : Py MainWindow unit :=
  connect btn_Calculate_clicked slot_Calculate ;;
  connect rdo_Quality_clicked slot_SelectQualityOrTHigh ;;
  connect rdo_THigh_clicked slot_SelectQualityOrTHigh ;;
  connect le_PHigh_editingFinished slot_setNewPHigh ;;
  connect le_PLow_editingFinished slot_setNewPLow ;;
  connect rb_SI_clicked slot_SetUnits ;;
  connect rb_English_clicked slot_SetUnits ;;
  connect cmb_XAxis_currentIndexChanged slot_SetPlotVariables ;;
  connect cmb_YAxis_currentIndexChanged slot_SetPlotVariables ;;
  connect chk_logX_toggled slot_SetPlotVariables ;;
  connect chk_logY_toggled slot_SetPlotVariables.

(** *** [MakeCanvas] (lines 73-83); the figure, the toolbar and the
    layout carry no state that the window reads back. *)
Definition MakeCanvas : Py MainWindow unit :=
  mpl_connect "motion_notify_event" cb_mouseMoveEvent_Canvas.

(** *** [mouseMoveEvent_Canvas] (lines 85-94) *)

Definition sUnit_of (si : bool) : string := if si then "kJ/(kg*K)" else "BTU/(lb*R)".
Definition TUnit_of (si : bool) : string := if si then "C" else "F".

(** ['s: {:.2f} {}, T: {:.2f} {}'.format(x, sUnit, y, TUnit)] *)
Definition hover_title (x : PyVal) (sUnit : string) (y : PyVal) (TUnit : string)
  : PyError + string :=
  match format_spec_2f x with
  | inl e => inl e
  | inr sx =>
      match format_spec_2f y with
      | inl e => inl e
      | inr sy => inr ("s: " ++ sx ++ " " ++ sUnit ++ ", T: " ++ sy ++ " " ++ TUnit)
      end
  end.

Definition lift {A} (r : PyError + A) : Py MainWindow A :=
  fun w => match r with inl e => inl e | inr a => inr (a, w) end.

Definition is_not_None (v : PyVal) : bool :=
  match v with PyNone => false | PyFloat _ => true end.

Definition mouseMoveEvent_Canvas (event : MouseEvent) : Py MainWindow unit :=
  (if is_not_None (xdata event)
   then modify (with_oldXData (xdata event))
   else (x <- getattr "oldXData" oldXData ;; modify (with_oldXData x))) ;;
  (if is_not_None (ydata event)
   then modify (with_oldYData (ydata event))
   else (y <- getattr "oldYData" oldYData ;; modify (with_oldYData y))) ;;
  si <- gets (fun w => rb_SI (ui w)) ;;
  let sUnit := sUnit_of si in
  let TUnit := TUnit_of si in
  x <- getattr "oldXData" oldXData ;;
  y <- getattr "oldYData" oldYData ;;
  title <- lift (hover_title x sUnit y TUnit) ;;
  setWindowTitle title.

(** *** [__init__] (lines 20-54) *)
Definition __init__ : Py MainWindow unit :=
  (* super().__init__(); self.setupUi(self): the widgets of [blank] *)
  AssignSlots ;;
  MakeCanvas ;;
  (* input_widgets and display_widgets alias the window's own widgets *)
  modify (fun w => log EvNewController (with_RC (rankineController (ui w)) w)) ;;
  MainWindow_setNewPHigh ;;
  MainWindow_setNewPLow ;;
  Calculate ;;
  modify (with_oldXData (PyFloat 0)) ;;
  modify (with_oldYData (PyFloat 0)) ;;
  show.

(** *** Main execution (lines 140-144), up to the event loop *)
Definition main : Py MainWindow unit :=
  __init__ ;;
  setWindowTitle "Rankine calculator".

(** ** The event loop *)

Definition run_slot (sl : Slot) : Py MainWindow unit :=
  match sl with
  | slot_Calculate => Calculate
  | slot_SelectQualityOrTHigh => SelectQualityOrTHigh
  | slot_SetPlotVariables => SetPlotVariables
  | slot_SetUnits => SetUnits
  | slot_setNewPHigh => MainWindow_setNewPHigh
  | slot_setNewPLow => MainWindow_setNewPLow
  end.

(** Qt runs the slots connected to a signal one after the other, in the
    order of connection, and returns to the emitter when the last one
    has returned. *)
Fixpoint run_connected (sg : Signal) (l : list (Signal * Slot)) : Py MainWindow unit :=
  match l with
  | [] => ret tt
  | (sg', sl) :: l' =>
      if Signal_eqb sg sg' then (run_slot sl ;; run_connected sg l')
      else run_connected sg l'
  end.

Definition emit (sg : Signal) : Py MainWindow unit :=
  l <- gets connections ;; run_connected sg l.

Definition run_callback (cb : Callback) (event : MouseEvent) : Py MainWindow unit :=
  match cb with
  | cb_mouseMoveEvent_Canvas => mouseMoveEvent_Canvas event
  end.

Fixpoint run_callbacks (name : string) (event : MouseEvent)
  (l : list (string * Callback)) : Py MainWindow unit :=
  match l with
  | [] => ret tt
  | (name', cb) :: l' =>
      if String.eqb name name' then (run_callback cb event ;; run_callbacks name event l')
      else run_callbacks name event l'
  end.

(** What the user can do to the window.  The widgets behave as Qt
    documents them: a combo box raises [currentIndexChanged] and a check
    box raises [toggled] only when the value really changes; buttons
    raise [clicked] on every click; a line edit raises [editingFinished]
    when the edit is committed. *)
Inductive UserAction : Type :=
| ClickCalculate
| ClickQuality
| ClickTHigh
| EditPHigh (s : string)
| EditPLow (s : string)
| ClickSI
| ClickEnglish
| SelectXAxis (i : nat)
| SelectYAxis (i : nat)
| SetLogX (b : bool)
| SetLogY (b : bool)
| MouseMove (event : MouseEvent).

Definition set_widgets (f : Widgets -> Widgets) : Py MainWindow unit :=
  modify (fun w => with_ui (f (ui w)) w).

Definition handle (a : UserAction) : Py MainWindow unit :=
  match a with
  | ClickCalculate => emit btn_Calculate_clicked
  | ClickQuality => set_widgets (set_rdo_Quality true) ;; emit rdo_Quality_clicked
  | ClickTHigh => set_widgets (set_rdo_Quality false) ;; emit rdo_THigh_clicked
  | EditPHigh s => set_widgets (set_le_PHigh s) ;; emit le_PHigh_editingFinished
  | EditPLow s => set_widgets (set_le_PLow s) ;; emit le_PLow_editingFinished
  | ClickSI => set_widgets (set_rb_SI true) ;; emit rb_SI_clicked
  | ClickEnglish => set_widgets (set_rb_SI false) ;; emit rb_English_clicked
  | SelectXAxis i =>
      cur <- gets (fun w => cmb_XAxis (ui w)) ;;
      if Nat.eqb i cur then ret tt
      else (set_widgets (set_cmb_XAxis i) ;; emit cmb_XAxis_currentIndexChanged)
  | SelectYAxis i =>
      cur <- gets (fun w => cmb_YAxis (ui w)) ;;
      if Nat.eqb i cur then ret tt
      else (set_widgets (set_cmb_YAxis i) ;; emit cmb_YAxis_currentIndexChanged)
  | SetLogX b =>
      cur <- gets (fun w => chk_logX (ui w)) ;;
      if Bool.eqb b cur then ret tt
      else (set_widgets (set_chk_logX b) ;; emit chk_logX_toggled)
  | SetLogY b =>
      cur <- gets (fun w => chk_logY (ui w)) ;;
      if Bool.eqb b cur then ret tt
      else (set_widgets (set_chk_logY b) ;; emit chk_logY_toggled)
  | MouseMove event =>
      l <- gets mpl_callbacks ;; run_callbacks "motion_notify_event" event l
  end.

(** The windows that can exist while the application runs: the one
    [main] builds, and whatever user actions make of it. *)
Inductive reachable : MainWindow -> Prop :=
| reach_main u0 w :
    main (blank u0) = inr (tt, w) -> reachable w
| reach_step w a w' :
    reachable w -> handle a w = inr (tt, w') -> reachable w'.

End Window.

(** * The cycle engine behind the controller

    [Rankine_Classes_MVC] (the controller, its model and its view) and
    [UnitConversions] are imported by the window but are not among the
    sources.  What follows is written from the specification's sections
    3, 4 and 7: the [CycleSolver] and the [PlotSampler] over a
    [PropertyTable] interface.  Numbers are rationals; unit conversion is
    left out, every quantity being in the caller's units. *)

Definition Qltb (a b : Q) : bool := negb (Qle_bool b a).

(** Modelled from the spec: the [UnitSystem] selector of section 3 (the
    module that defines it is missing). *)
Inductive UnitSystem : Type := SI | English.

Definition UnitSystem_eqb (a b : UnitSystem) : bool :=
  match a, b with
  | SI, SI | English, English => true
  | _, _ => false
  end.

(** Modelled from the spec: [StatePoint] of section 3; the quality is
    [None] outside the two-phase region. *)
Record StatePoint : Type := {
  sp_P : Q;
  sp_T : Q;
  sp_h : Q;
  sp_s : Q;
  sp_v : Q;
  sp_x : option Q
}.

(** Modelled from the spec: the tuple returned by [saturationProps]
    (section 4.1). *)
Record SatProps : Type := {
  Tsat : Q; hf : Q; hg : Q; sf : Q; sg : Q; vf : Q; vg : Q
}.

(** Modelled from the spec: the [PropertyTable] contract of section 4.1,
    whose data and interpolation code are missing.  A lookup outside the
    tabulated range ([OutOfRangeError]) is [None].  The two reverse
    lookups are the ones section 4.3 asks for in the superheated region:
    by entropy they give (T, h, v), by enthalpy (T, s, v).  [P_min] and
    [P_crit] bound the pressures of the saturation dome. *)
Record PropertyTable : Type := {
  saturationProps : Q -> option SatProps;
  superheatedProps : Q -> Q -> option (Q * Q * Q);
  saturationTemp : Q -> option Q;
  superheatedAtEntropy : Q -> Q -> option (Q * Q * Q);
  superheatedAtEnthalpy : Q -> Q -> option (Q * Q * Q);
  P_min : Q;
  P_crit : Q
}.

(** Modelled from the spec: the error kinds of section 7. *)
Inductive BoundaryFault : Type := PressureOrdering | InletSpecification.

Inductive StateLabel : Type := State1 | State2 | State3 | State4.

Inductive CoreError : Type :=
| InvalidBoundaryError (kind : BoundaryFault)
| PropertyLookupError (at_state : StateLabel)
| OutOfRangeError
| InvalidUnitError
| DomainError.

Definition result (A : Type) : Type := (CoreError + A)%type.

Definition rbind {A B} (r : result A) (k : A -> result B) : result B :=
  match r with
  | inl e => inl e
  | inr a => k a
  end.

Declare Scope res_scope.
Delimit Scope res_scope with res.
Notation "x <- c ;; k" := (rbind c (fun x => k))
  (at level 61, c at next level, right associativity) : res_scope.
Notation "' p <- c ;; k" := (rbind c (fun x => match x with p => k end))
  (at level 61, p pattern, c at next level, right associativity) : res_scope.

(** Modelled from the spec: [CycleBoundary] of section 3, the inlet
    being the tagged variant of section 9. *)
Inductive InletSpec : Type :=
| Quality (x1 : Q)
| Temperature (T1 : Q).

Record CycleBoundary : Type := {
  P_H : Q;
  P_L : Q;
  inlet : InletSpec;
  eta_t : Q
}.

(** Modelled from the spec: [CycleResult] of section 3. *)
Record CycleResult : Type := {
  state1 : StatePoint;
  state2 : StatePoint;
  state3 : StatePoint;
  state4 : StatePoint;
  w_t : Q;
  w_p : Q;
  q_in : Q;
  eta_th : Q
}.

(** Modelled from the spec: the state the [CycleSolver] owns (section 3,
    Ownership): the boundary it was last given, the unit system, and the
    last published result. *)
Record CycleSolver : Type := {
  cs_boundary : CycleBoundary;
  cs_units : UnitSystem;
  cs_result : option CycleResult
}.

Section Engine.

Variable tbl : PropertyTable.

Local Open Scope res_scope.
Local Open Scope Q_scope.

(** Modelled from the spec: the validity of a boundary as the property
    list of section 8 and the claims use it. *)
Definition valid_boundary (b : CycleBoundary) : Prop :=
  0 < P_L b /\ P_L b < P_H b /\ 0 < eta_t b /\ eta_t b <= 1.

(** Modelled from the spec: the invariants [setBoundary] validates
    (section 3, CycleBoundary, Invariant): the pressure ordering first,
    then the inlet specification. *)
Definition validate (b : CycleBoundary) : result unit :=
  if Qltb (P_L b) (P_H b) && Qltb 0 (P_L b) then
    match inlet b with
    | Quality _ => inr tt
    | Temperature T1 =>
        match saturationTemp tbl (P_H b) with
        | None => inl (PropertyLookupError State1)
        | Some ts =>
            if Qltb ts T1 then inr tt
            else inl (InvalidBoundaryError InletSpecification)
        end
    end
  else inl (InvalidBoundaryError PressureOrdering).

(** Modelled from the spec: [setBoundary] of section 4.3.  A rejected
    boundary leaves the solver as it was; an accepted one is stored, and
    a change of unit system drops the cached result (section 3). *)
Definition setBoundary (cs : CycleSolver) (b : CycleBoundary) (u : UnitSystem)
  : CycleSolver * result unit :=
  match validate b with
  | inl e => (cs, inl e)
  | inr _ =>
      ({| cs_boundary := b;
          cs_units := u;
          cs_result := if UnitSystem_eqb u (cs_units cs) then cs_result cs else None |},
       inr tt)
  end.

(** Quality weighting between saturated liquid and saturated vapor. *)
Definition mix (x lo hi : Q) : Q := lo + x * (hi - lo).

(** Modelled from the spec: a two-phase state (section 3, StatePoint,
    Invariant). *)
Definition saturatedState (p : Q) (sat : SatProps) (x : Q) : StatePoint :=
  {| sp_P := p;
     sp_T := Tsat sat;
     sp_h := mix x (hf sat) (hg sat);
     sp_s := mix x (sf sat) (sg sat);
     sp_v := mix x (vf sat) (vg sat);
     sp_x := Some x |}.

Definition lookup {A} (at_state : StateLabel) (o : option A) : result A :=
  match o with
  | Some a => inr a
  | None => inl (PropertyLookupError at_state)
  end.

(** Modelled from the spec: state 1 from the inlet specification. *)
Definition resolveState1 (b : CycleBoundary) : result StatePoint :=
  match inlet b with
  | Quality x1 =>
      sat <- lookup State1 (saturationProps tbl (P_H b)) ;;
      inr (saturatedState (P_H b) sat x1)
  | Temperature T1 =>
      '(h1, s1, v1) <- lookup State1 (superheatedProps tbl (P_H b) T1) ;;
      inr {| sp_P := P_H b; sp_T := T1; sp_h := h1; sp_s := s1; sp_v := v1;
             sp_x := None |}
  end.

(** Modelled from the spec: the isentropic exit 2s at the low pressure,
    by quality inversion on the entropy; above x = 1 the superheated
    reverse lookup, otherwise the quality clamped at 0. *)
Definition isentropicExit (p : Q) (sat : SatProps) (s1 : Q) : result StatePoint :=
  let x := (s1 - sf sat) / (sg sat - sf sat) in
  if Qltb 1 x then
    '(T2, h2s, v2) <- lookup State2 (superheatedAtEntropy tbl p s1) ;;
    inr {| sp_P := p; sp_T := T2; sp_h := h2s; sp_s := s1; sp_v := v2;
           sp_x := None |}
  else inr (saturatedState p sat (Qmax 0 x)).

(** Modelled from the spec: the actual exit enthalpy, in one step. *)
Definition actualExitEnthalpy (eta h1 h2s : Q) : Q := h1 - eta * (h1 - h2s).

(** Modelled from the spec: the actual exit state at the low pressure
    with enthalpy [h2].  The specification fixes its pressure and
    enthalpy only; the other coordinates are found the way state 2s is,
    with the enthalpy in place of the entropy. *)
Definition twoPhaseAtEnthalpy (p : Q) (sat : SatProps) (h2 : Q) : StatePoint :=
  let x2 := Qmax 0 ((h2 - hf sat) / (hg sat - hf sat)) in
  {| sp_P := p; sp_T := Tsat sat; sp_h := h2;
     sp_s := mix x2 (sf sat) (sg sat);
     sp_v := mix x2 (vf sat) (vg sat);
     sp_x := Some x2 |}.

Definition turbineExit (p : Q) (sat : SatProps) (h2 : Q) : result StatePoint :=
  let x := (h2 - hf sat) / (hg sat - hf sat) in
  if Qltb 1 x then
    '(T2, s2, v2) <- lookup State2 (superheatedAtEnthalpy tbl p h2) ;;
    inr {| sp_P := p; sp_T := T2; sp_h := h2; sp_s := s2; sp_v := v2;
           sp_x := None |}
  else inr (twoPhaseAtEnthalpy p sat h2).

(** Modelled from the spec: the closed-form part of [recompute], once
    the table has answered: pump work, state 4 and the derived terms.
    State 4 keeps the temperature, entropy and volume of state 3, in
    line with the incompressible-liquid approximation. *)
Definition assemble (b : CycleBoundary) (st1 st2 st3 : StatePoint) : CycleResult :=
  let wp := sp_v st3 * (P_H b - P_L b) in
  let h4 := sp_h st3 + wp in
  let st4 := {| sp_P := P_H b; sp_T := sp_T st3; sp_h := h4; sp_s := sp_s st3;
                sp_v := sp_v st3; sp_x := None |} in
  let wt := sp_h st1 - sp_h st2 in
  let qin := sp_h st1 - h4 in
  {| state1 := st1; state2 := st2; state3 := st3; state4 := st4;
     w_t := wt; w_p := wp; q_in := qin; eta_th := (wt - wp) / qin |}.

(** Modelled from the spec: the four state points and the derived terms
    of a boundary (section 4.3, [recompute]). *)
Definition resolve (b : CycleBoundary) : result CycleResult :=
  st1 <- resolveState1 b ;;
  satL <- lookup State2 (saturationProps tbl (P_L b)) ;;
  st2s <- isentropicExit (P_L b) satL (sp_s st1) ;;
  let h2 := actualExitEnthalpy (eta_t b) (sp_h st1) (sp_h st2s) in
  st2 <- turbineExit (P_L b) satL h2 ;;
  let st3 := saturatedState (P_L b) satL 0 in
  inr (assemble b st1 st2 st3).

(** Modelled from the spec: [recompute] publishes the result in one
    piece; on an error nothing is published. *)
Definition recompute (cs : CycleSolver) : CycleSolver * result CycleResult :=
  match resolve (cs_boundary cs) with
  | inl e => (cs, inl e)
  | inr r =>
      ({| cs_boundary := cs_boundary cs; cs_units := cs_units cs;
          cs_result := Some r |},
       inr r)
  end.



(** ** PlotSampler *)

(** Modelled from the spec: the property set of section 4.4. *)
Inductive AxisVar : Type := AxT | AxS | AxH | AxP | AxV.

Definition coordinate (a : AxisVar) (sp : StatePoint) : Q :=
  match a with
  | AxT => sp_T sp
  | AxS => sp_s sp
  | AxH => sp_h sp
  | AxP => sp_P sp
  | AxV => sp_v sp
  end.

(** The logarithm the sampler applies; only its domain matters here. *)
Variable ln : Q -> Q.

(** Modelled from the spec: the coordinate transform of a log-scale
    flag, which fails on a non-positive value. *)
Definition scaled (lg : bool) (value : Q) : result Q :=
  if lg then
    if Qle_bool value 0 then inl DomainError else inr (ln value)
  else inr value.

Definition samplePoint (xAxisVar yAxisVar : AxisVar) (logX logY : bool)
  (sp : StatePoint) : result (Q * Q) :=
  x <- scaled logX (coordinate xAxisVar sp) ;;
  y <- scaled logY (coordinate yAxisVar sp) ;;
  inr (x, y).

Fixpoint traverse {A B} (f : A -> result B) (l : list A) : result (list B) :=
  match l with
  | [] => inr []
  | a :: l' =>
      b <- f a ;;
      bs <- traverse f l' ;;
      inr (b :: bs)
  end.

Definition domeResolution : nat := 100.

(** Pressures from [P_min] up to, and short of, the critical pressure. *)
Definition domePressures : list Q :=
  map (fun i => P_min tbl
                + inject_Z (Z.of_nat i) * (P_crit tbl - P_min tbl)
                  / inject_Z (Z.of_nat domeResolution))
      (seq 0 domeResolution).

Definition domeState (x : Q) (p : Q) : result StatePoint :=
  match saturationProps tbl p with
  | Some sat => inr (saturatedState p sat x)
  | None => inl OutOfRangeError
  end.

(** Modelled from the spec: the saturation dome, the liquid line upwards
    and the vapor line back down. *)
Definition domeStates : result (list StatePoint) :=
  liquid <- traverse (domeState 0) domePressures ;;
  vapor <- traverse (domeState 1) (rev domePressures) ;;
  inr (liquid ++ vapor)%list.

Definition is_Ts (xAxisVar yAxisVar : AxisVar) : bool :=
  match xAxisVar, yAxisVar with
  | AxS, AxT => true
  | _, _ => false
  end.

(** Modelled from the spec: the states whose coordinates are requested:
    the four cycle states and, in T-s mode, the dome. *)
Definition requestedStates (r : CycleResult) (xAxisVar yAxisVar : AxisVar)
  : result (list StatePoint) :=
  let cycle := [state1 r; state2 r; state3 r; state4 r] in
  if is_Ts xAxisVar yAxisVar then
    dome <- domeStates ;;
    inr (cycle ++ dome)%list
  else inr cycle.

(** Modelled from the spec: [sample] of section 4.4; nothing is kept
    between calls. *)
Definition sample (r : CycleResult) (xAxisVar yAxisVar : AxisVar)
  (logX logY : bool) : result (list (Q * Q)) :=
  states <- requestedStates r xAxisVar yAxisVar ;;
  traverse (samplePoint xAxisVar yAxisVar logX logY) states.

End Engine.

(** * Concrete data for running the definitions *)

(** Saturation rows of water at 8000 kPa, 8 kPa and the triple point
    (0.6113 kPa), as steam tables print them (kJ/kg, kJ/(kg K), m3/kg,
    deg C).  Nothing else is tabulated. *)
Definition sat_8000kPa : SatProps :=
  {| Tsat := 29506 # 100; hf := 13166 # 10; hg := 27580 # 10;
     sf := 32068 # 10000; sg := 57432 # 10000;
     vf := 13842 # 10000000; vg := 2352 # 100000 |}.

Definition sat_8kPa : SatProps :=
  {| Tsat := 4151 # 100; hf := 17388 # 100; hg := 25770 # 10;
     sf := 5926 # 10000; sg := 82287 # 10000;
     vf := 10084 # 10000000; vg := 18103 # 1000 |}.

Definition sat_triple : SatProps :=
  {| Tsat := 1 # 100; hf := 0; hg := 25013 # 10;
     sf := 0; sg := 91562 # 10000;
     vf := 1 # 1000; vg := 20614 # 100 |}.

Definition steamRows (p : Q) : option SatProps :=
  if Qeq_bool p 8000 then Some sat_8000kPa
  else if Qeq_bool p 8 then Some sat_8kPa
  else if Qeq_bool p (6113 # 10000) then Some sat_triple
  else None.

Definition steamTable : PropertyTable :=
  {| saturationProps := steamRows;
     superheatedProps := fun _ _ => None;
     saturationTemp := fun p => option_map Tsat (steamRows p);
     superheatedAtEntropy := fun _ _ => None;
     superheatedAtEnthalpy := fun _ _ => None;
     P_min := 6113 # 10000;
     P_crit := 22064 |}.

(** The textbook cycle of section 8: saturated vapor at 8000 kPa
    expanding to 8 kPa. *)
Definition classicBoundary (eta : Q) : CycleBoundary :=
  {| P_H := 8000; P_L := 8; inlet := Quality 1; eta_t := eta |}.

(** The same inlet, condensing at the triple point. *)
Definition tripleBoundary : CycleBoundary :=
  {| P_H := 8000; P_L := 6113 # 10000; inlet := Quality 1; eta_t := 1 |}.

(** The two pressures of the textbook cycle, swapped. *)
Definition reversedBoundary : CycleBoundary :=
  {| P_H := 8; P_L := 8000; inlet := Quality 1; eta_t := 1 |}.

(** A wet inlet (quality 1/2) with a poor turbine. *)
Definition wetBoundary : CycleBoundary :=
  {| P_H := 8000; P_L := 8; inlet := Quality (1 # 2); eta_t := 1 # 100 |}.

(** The states and the result of the wet cycle, written out. *)
Definition wet_st1 : StatePoint := saturatedState 8000 sat_8000kPa (1 # 2).

Definition wet_st2s : StatePoint :=
  saturatedState 8 sat_8kPa
    (Qmax 0 ((sp_s wet_st1 - sf sat_8kPa) / (sg sat_8kPa - sf sat_8kPa))).


(** The states of the textbook cycle with a turbine of efficiency
    [eta], written out. *)
Definition classic_st1 : StatePoint := saturatedState 8000 sat_8000kPa 1.

Definition classic_st2s : StatePoint :=
  saturatedState 8 sat_8kPa
    (Qmax 0 ((sp_s classic_st1 - sf sat_8kPa) / (sg sat_8kPa - sf sat_8kPa))).

Definition classic_st2 (eta : Q) : StatePoint :=
  twoPhaseAtEnthalpy 8 sat_8kPa
    (actualExitEnthalpy eta (sp_h classic_st1) (sp_h classic_st2s)).

Definition classicResult (eta : Q) : CycleResult :=
  assemble (classicBoundary eta) classic_st1 (classic_st2 eta)
    (saturatedState 8 sat_8kPa 0).

(** A cycle condensing at the triple point, where the entropy and the
    enthalpy of the saturated liquid are zero. *)
Definition tripleResult : CycleResult :=
  assemble tripleBoundary classic_st1
    (saturatedState (6113 # 10000) sat_triple (627 # 1000))
    (saturatedState (6113 # 10000) sat_triple 0).

Definition solverAt (b : CycleBoundary) : CycleSolver :=
  {| cs_boundary := b; cs_units := SI; cs_result := None |}.

(** A controller that does nothing: enough to run the window when only
    the window's own attributes are observed. *)
Definition idleController : RankineController unit :=
  {| rankineController := fun _ => tt;
     updateModel := fun u c => (u, c);
     selectQualityOrTHigh := fun u c => (u, c);
     updatePlot := fun u c => (u, c);
     updateUnits := fun u c => (u, c);
     setNewPHigh := fun u c => (u, c);
     setNewPLow := fun u c => (u, c) |}.

Definition designerWidgets : Widgets :=
  {| rb_SI := true; le_PHigh := "8000"; le_PLow := "8";
     le_TurbineInletCondition := "1.0"; rdo_Quality := true;
     le_TurbineEff := "1.0"; cmb_XAxis := 0; cmb_YAxis := 0;
     chk_logX := false; chk_logY := false |}.


(** The tangent of the logarithm at 1, to have a function to run. *)
Definition lnTangent (value : Q) : Q := value - 1.


(** ** What the specification asks of the parts the sources lack *)


(** The unit suffixes of the StatePoint data model (section 3): entropy
    in kJ/(kg*K) or BTU/(lb*R), temperature in K or degrees F. *)
Definition degree_sign : string :=
  String (ascii_of_nat 194) (String (ascii_of_nat 176) EmptyString).

Definition spec_sUnit (si : bool) : string :=
  if si then "kJ/(kg*K)" else "BTU/(lb*R)".

Definition spec_TUnit (si : bool) : string :=
  if si then "K" else degree_sign ++ "F".

Definition spec_hover_title (si : bool) (x y : Q) : string :=
  "s: " ++ format_2f x ++ " " ++ spec_sUnit si
  ++ ", T: " ++ format_2f y ++ " " ++ spec_TUnit si.


(** * Facts about the window *)

Section WindowFacts.

Context {C : Type} `{ctrl : RankineController C}.

Local Abbreviation Window := (@MainWindow C).

(** The table [AssignSlots] builds. *)
Definition slot_table : list (Signal * Slot) :=
  [ (btn_Calculate_clicked, slot_Calculate);
    (rdo_Quality_clicked, slot_SelectQualityOrTHigh);
    (rdo_THigh_clicked, slot_SelectQualityOrTHigh);
    (le_PHigh_editingFinished, slot_setNewPHigh);
    (le_PLow_editingFinished, slot_setNewPLow);
    (rb_SI_clicked, slot_SetUnits);
    (rb_English_clicked, slot_SetUnits);
    (cmb_XAxis_currentIndexChanged, slot_SetPlotVariables);
    (cmb_YAxis_currentIndexChanged, slot_SetPlotVariables);
    (chk_logX_toggled, slot_SetPlotVariables);
    (chk_logY_toggled, slot_SetPlotVariables) ].

Definition slot_of (sg : Signal) : Slot :=
  match sg with
  | btn_Calculate_clicked => slot_Calculate
  | rdo_Quality_clicked | rdo_THigh_clicked => slot_SelectQualityOrTHigh
  | le_PHigh_editingFinished => slot_setNewPHigh
  | le_PLow_editingFinished => slot_setNewPLow
  | rb_SI_clicked | rb_English_clicked => slot_SetUnits
  | _ => slot_SetPlotVariables
  end.

(** What holds of a window once the constructor has run. *)
Record wired (w : Window) : Prop := {
  wired_connections : connections w = slot_table;
  wired_callbacks :
    mpl_callbacks w = [("motion_notify_event", cb_mouseMoveEvent_Canvas)];
  wired_RC : exists c, RC w = Some c;
  wired_oldX : exists x, oldXData w = Some (PyFloat x);
  wired_oldY : exists y, oldYData w = Some (PyFloat y)
}.

(** The effect of one controller call on a window. *)
Definition after_call (tag : RCMethod) (m : Widgets -> C -> Widgets * C)
  (c : C) (w : Window) : Window :=
  log (EvCall tag) (with_RC (snd (m (ui w) c)) (with_ui (fst (m (ui w) c)) w)).

Definition method_of (sl : Slot) : RCMethod * (Widgets -> C -> Widgets * C) :=
  match sl with
  | slot_Calculate => (RC_updateModel, updateModel)
  | slot_SelectQualityOrTHigh => (RC_selectQualityOrTHigh, selectQualityOrTHigh)
  | slot_SetPlotVariables => (RC_updatePlot, updatePlot)
  | slot_SetUnits => (RC_updateUnits, updateUnits)
  | slot_setNewPHigh => (RC_setNewPHigh, setNewPHigh)
  | slot_setNewPLow => (RC_setNewPLow, setNewPLow)
  end.

Lemma call_RC_runs tag m (w : Window) c :
  RC w = Some c -> call_RC tag m w = inr (tt, after_call tag m c w).
Proof.
  intros HRC. unfold call_RC, bind, getattr, modify. rewrite HRC. reflexivity.
Qed.

Lemma run_slot_runs sl (w : Window) c :
  RC w = Some c ->
  run_slot sl w = inr (tt, after_call (fst (method_of sl)) (snd (method_of sl)) c w).
Proof.
  intros HRC. destruct sl; simpl; apply call_RC_runs; exact HRC.
Qed.

Lemma wired_after_call tag m c (w : Window) :
  wired w -> wired (after_call tag m c w).
Proof.
  intros [Hc Hm HRC Hx Hy]. constructor; simpl; try assumption.
  eexists; reflexivity.
Qed.

Lemma wired_with_ui u (w : Window) : wired w -> wired (with_ui u w).
Proof. intros [Hc Hm HRC Hx Hy]. constructor; simpl; assumption. Qed.

(** On a wired window a signal runs the one slot connected to it. *)
Lemma emit_runs sg (w : Window) c :
  wired w -> RC w = Some c ->
  emit sg w
  = inr (tt, after_call (fst (method_of (slot_of sg))) (snd (method_of (slot_of sg))) c w).
Proof.
  intros Hw HRC. unfold emit, bind, gets.
  rewrite (wired_connections w Hw).
  unfold slot_table; destruct sg; cbn [run_connected Signal_eqb]; unfold bind;
    rewrite (run_slot_runs _ w c HRC); reflexivity.
Qed.

(** The hover handler on a window whose stored coordinates are floats. *)
Definition hover_value (data : PyVal) (old : Q) : Q :=
  match data with
  | PyNone => old
  | PyFloat q => q
  end.

Definition after_hover (event : MouseEvent) (x0 y0 : Q) (w : Window) : Window :=
  let x1 := hover_value (xdata event) x0 in
  let y1 := hover_value (ydata event) y0 in
  let si := rb_SI (ui w) in
  let title := "s: " ++ format_2f x1 ++ " " ++ sUnit_of si
               ++ ", T: " ++ format_2f y1 ++ " " ++ TUnit_of si in
  log (EvSetWindowTitle title)
    (with_windowTitle title
       (with_oldYData (PyFloat y1) (with_oldXData (PyFloat x1) w))).

Lemma mouseMoveEvent_Canvas_runs event (w : Window) x0 y0 :
  oldXData w = Some (PyFloat x0) -> oldYData w = Some (PyFloat y0) ->
  mouseMoveEvent_Canvas event w = inr (tt, after_hover event x0 y0 w).
Proof.
  intros Hx Hy. destruct event as [xd yd].
  unfold mouseMoveEvent_Canvas, after_hover, bind, modify, getattr, gets, lift,
    setWindowTitle, hover_title, format_spec_2f.
  destruct xd as [|qx], yd as [|qy]; simpl; rewrite ?Hx, ?Hy; simpl;
    rewrite ?Hx, ?Hy; reflexivity.
Qed.

Lemma wired_after_hover event x0 y0 (w : Window) :
  wired w -> wired (after_hover event x0 y0 w).
Proof.
  intros [Hc Hm HRC Hx Hy]. constructor; simpl; try assumption;
    eexists; reflexivity.
Qed.

(** The constructor runs to its end on any widget values. *)
Definition constructed (u0 : Widgets) : Window :=
  let c0 := rankineController u0 in
  let r1 := setNewPHigh u0 c0 in
  let r2 := setNewPLow (fst r1) (snd r1) in
  let r3 := updateModel (fst r2) (snd r2) in
  {| ui := fst r3;
     connections := slot_table;
     mpl_callbacks := [("motion_notify_event", cb_mouseMoveEvent_Canvas)];
     RC := Some (snd r3);
     oldXData := Some (PyFloat 0);
     oldYData := Some (PyFloat 0);
     windowTitle := "";
     visible := true;
     trace := [EvNewController; EvCall RC_setNewPHigh; EvCall RC_setNewPLow;
               EvCall RC_updateModel; EvShow] |}.

Lemma init_runs u0 : __init__ (blank u0) = inr (tt, constructed u0).
Proof. reflexivity. Qed.

Lemma main_runs u0 :
  main (blank u0)
  = inr (tt, log (EvSetWindowTitle "Rankine calculator")
               (with_windowTitle "Rankine calculator" (constructed u0))).
Proof. reflexivity. Qed.

Lemma wired_constructed u0 : wired (constructed u0).
Proof. constructor; simpl; try reflexivity; eexists; reflexivity. Qed.

Lemma wired_titled s (w : Window) :
  wired w -> wired (log (EvSetWindowTitle s) (with_windowTitle s w)).
Proof. intros [Hc Hm HRC Hx Hy]. constructor; simpl; assumption. Qed.

(** A user action on a wired window runs without raising and leaves the
    window wired. *)
Lemma handle_wired a (w : Window) :
  wired w -> exists w', handle a w = inr (tt, w') /\ wired w'.
Proof.
  intros Hw.
  destruct (wired_RC w Hw) as [c HRC].
  destruct (wired_oldX w Hw) as [x0 Hx].
  destruct (wired_oldY w Hw) as [y0 Hy].
  assert (Hset : forall f sg, exists w',
             bind (set_widgets f) (fun _ => emit sg) w = inr (tt, w') /\ wired w').
  { intros f sg. unfold bind, set_widgets, modify.
    rewrite (emit_runs sg (with_ui (f (ui w)) w) c (wired_with_ui _ w Hw) HRC).
    eexists; split; [reflexivity|].
    apply wired_after_call, wired_with_ui, Hw. }
  destruct a; simpl; try apply Hset.
  - rewrite (emit_runs _ w c Hw HRC).
    eexists; split; [reflexivity | apply wired_after_call, Hw].
  - unfold bind at 1, gets. destruct (Nat.eqb i (cmb_XAxis (ui w))).
    + eexists; split; [reflexivity | exact Hw].
    + apply Hset.
  - unfold bind at 1, gets. destruct (Nat.eqb i (cmb_YAxis (ui w))).
    + eexists; split; [reflexivity | exact Hw].
    + apply Hset.
  - unfold bind at 1, gets. destruct (Bool.eqb b (chk_logX (ui w))).
    + eexists; split; [reflexivity | exact Hw].
    + apply Hset.
  - unfold bind at 1, gets. destruct (Bool.eqb b (chk_logY (ui w))).
    + eexists; split; [reflexivity | exact Hw].
    + apply Hset.
  - unfold bind, gets. rewrite (wired_callbacks w Hw). simpl. unfold bind.
    rewrite (mouseMoveEvent_Canvas_runs event w x0 y0 Hx Hy).
    eexists; split; [reflexivity | apply wired_after_hover, Hw].
Qed.

Lemma reachable_wired (w : Window) : reachable w -> wired w.
Proof.
  induction 1 as [u0 w Hmain | w a w' Hreach IH Hstep].
  - rewrite main_runs in Hmain. inversion Hmain; subst.
    apply wired_titled, wired_constructed.
  - destruct (handle_wired a w IH) as [w2 [Hrun Hw2]].
    rewrite Hrun in Hstep. inversion Hstep; subst. exact Hw2.
Qed.

(** ** The constructor *)

(** C10: the constructor of [MainWindow] runs to its end on any widget
    values; it creates the controller, then calls its [setNewPHigh],
    then its [setNewPLow], then [updateModel] (through [Calculate]), and
    only then shows the window.  The widgets and the controller state
    the shown window holds are the ones these three calls produced from
    the designer's defaults. *)
Theorem init_updates_before_show (u0 : Widgets) :
  exists w : Window,
    __init__ (blank u0) = inr (tt, w)
    /\ trace w = [EvNewController; EvCall RC_setNewPHigh; EvCall RC_setNewPLow;
                  EvCall RC_updateModel; EvShow]
    /\ visible w = true
    /\ (let r1 := setNewPHigh u0 (rankineController u0) in
        let r2 := setNewPLow (fst r1) (snd r1) in
        let r3 := updateModel (fst r2) (snd r2) in
        ui w = fst r3 /\ RC w = Some (snd r3)).
Proof.
  exists (constructed u0). rewrite init_runs.
  repeat split.
Qed.

(** ** The hover handler *)

(** C9: the constructor leaves both stored hover coordinates at 0.0, and
    on every window the application can reach the handler
    [mouseMoveEvent_Canvas] runs without raising: the stored coordinates
    are floats before and after it, each one is replaced by the event's
    value when that value is not [None] and kept otherwise, and the
    title is built from these two floats. *)
Theorem hover_keeps_numeric_coordinates :
  (forall u0 (w0 : Window),
      __init__ (blank u0) = inr (tt, w0) ->
      oldXData w0 = Some (PyFloat 0) /\ oldYData w0 = Some (PyFloat 0))
  /\ (forall (w : Window) (event : MouseEvent),
        reachable w ->
        exists x0 y0 w',
          oldXData w = Some (PyFloat x0)
          /\ oldYData w = Some (PyFloat y0)
          /\ mouseMoveEvent_Canvas event w = inr (tt, w')
          /\ oldXData w'
             = Some (PyFloat (match xdata event with PyNone => x0 | PyFloat q => q end))
          /\ oldYData w'
             = Some (PyFloat (match ydata event with PyNone => y0 | PyFloat q => q end))
          /\ exists x1 y1,
               oldXData w' = Some (PyFloat x1)
               /\ oldYData w' = Some (PyFloat y1)
               /\ hover_title (PyFloat x1) (sUnit_of (rb_SI (ui w)))
                    (PyFloat y1) (TUnit_of (rb_SI (ui w)))
                  = inr (windowTitle w')).
Proof.
  split.
  - intros u0 w0 Hinit. rewrite init_runs in Hinit.
    inversion Hinit; subst. split; reflexivity.
  - intros w event Hreach.
    pose proof (reachable_wired w Hreach) as Hw.
    destruct (wired_oldX w Hw) as [x0 Hx].
    destruct (wired_oldY w Hw) as [y0 Hy].
    exists x0, y0, (after_hover event x0 y0 w).
    rewrite (mouseMoveEvent_Canvas_runs event w x0 y0 Hx Hy).
    repeat split; try assumption.
    exists (hover_value (xdata event) x0), (hover_value (ydata event) y0).
    repeat split.
Qed.

(** C7, as the code has it: on every reachable window the title the
    hover handler sets is [s: <x> <sUnit>, T: <y> <TUnit>] with the
    stored coordinates printed with two decimals, the entropy suffix
    kJ/(kg*K) when [rb_SI] is checked and BTU/(lb*R) otherwise, and the
    temperature suffix C when [rb_SI] is checked and F otherwise. *)
Theorem hover_title_units (w : Window) (event : MouseEvent) :
  reachable w ->
  exists w' x y,
    mouseMoveEvent_Canvas event w = inr (tt, w')
    /\ oldXData w' = Some (PyFloat x)
    /\ oldYData w' = Some (PyFloat y)
    /\ windowTitle w'
       = "s: " ++ format_2f x ++ " "
         ++ (if rb_SI (ui w) then "kJ/(kg*K)" else "BTU/(lb*R)")
         ++ ", T: " ++ format_2f y ++ " "
         ++ (if rb_SI (ui w) then "C" else "F").
Proof.
  intros Hreach.
  pose proof (reachable_wired w Hreach) as Hw.
  destruct (wired_oldX w Hw) as [x0 Hx].
  destruct (wired_oldY w Hw) as [y0 Hy].
  exists (after_hover event x0 y0 w),
    (hover_value (xdata event) x0), (hover_value (ydata event) y0).
  rewrite (mouseMoveEvent_Canvas_runs event w x0 y0 Hx Hy).
  repeat split.
Qed.

(** ** Axis and log-scale changes *)

Section PlotRefresh.

Variable tbl : PropertyTable.
Variable ln : Q -> Q.
Variable axisOf : nat -> AxisVar.
Variable resultOf : C -> option CycleResult.
Variable plotOf : C -> result (list (Q * Q)).


End PlotRefresh.

End WindowFacts.

(** ** The window on concrete data *)

(** The window [main] builds around the idle controller. *)
Definition idleWindow : @MainWindow unit :=
  log (EvSetWindowTitle "Rankine calculator")
    (with_windowTitle "Rankine calculator"
       (constructed (ctrl := idleController) designerWidgets)).

Lemma idleWindow_reachable : reachable (ctrl := idleController) idleWindow.
Proof. apply (reach_main designerWidgets). reflexivity. Qed.

(** The pointer at y = 3.1416 with no x coordinate. *)
Definition hoverEvent : MouseEvent :=
  {| xdata := PyNone; ydata := PyFloat (31416 # 10000) |}.

Example hover_run :
  option_map windowTitle
    (match mouseMoveEvent_Canvas hoverEvent idleWindow with
     | inr (_, w') => Some w'
     | inl _ => None
     end)
  = Some "s: 0.00 kJ/(kg*K), T: 3.14 C".
Proof. reflexivity. Qed.

Lemma hover_keeps_numeric_coordinates_witness :
  reachable (ctrl := idleController) idleWindow
  /\ exists x0 y0 w',
       oldXData idleWindow = Some (PyFloat x0)
       /\ oldYData idleWindow = Some (PyFloat y0)
       /\ mouseMoveEvent_Canvas hoverEvent idleWindow
          = inr (tt, w')
       /\ oldXData w'
          = Some (PyFloat (match xdata hoverEvent with PyNone => x0 | PyFloat q => q end))
       /\ oldYData w'
          = Some (PyFloat (match ydata hoverEvent with PyNone => y0 | PyFloat q => q end))
       /\ exists x1 y1,
            oldXData w' = Some (PyFloat x1)
            /\ oldYData w' = Some (PyFloat y1)
            /\ hover_title (PyFloat x1) (sUnit_of (rb_SI (ui idleWindow)))
                 (PyFloat y1) (TUnit_of (rb_SI (ui idleWindow)))
               = inr (windowTitle w').
Proof.
  split.
  - exact idleWindow_reachable.
  - apply (proj2 (hover_keeps_numeric_coordinates (ctrl := idleController))).
    exact idleWindow_reachable.
Defined.

Lemma hover_title_units_witness :
  reachable (ctrl := idleController) idleWindow
  /\ exists w' x y,
       mouseMoveEvent_Canvas hoverEvent idleWindow
       = inr (tt, w')
       /\ oldXData w' = Some (PyFloat x)
       /\ oldYData w' = Some (PyFloat y)
       /\ windowTitle w'
          = "s: " ++ format_2f x ++ " "
            ++ (if rb_SI (ui idleWindow) then "kJ/(kg*K)" else "BTU/(lb*R)")
            ++ ", T: " ++ format_2f y ++ " "
            ++ (if rb_SI (ui idleWindow) then "C" else "F").
Proof.
  split.
  - exact idleWindow_reachable.
  - apply (hover_title_units (ctrl := idleController)).
    exact idleWindow_reachable.
Defined.

(** C7 as the specification words it fails: with [rb_SI] checked the
    title ends in C where the data model has K (and with it unchecked in
    F where the data model has the degree sign before F). *)
Lemma hover_title_not_in_kelvin :
  ~ (forall (C : Type) (ctrl : RankineController C) (w w' : @MainWindow C)
            (event : MouseEvent) (x y : Q),
        reachable w ->
        mouseMoveEvent_Canvas event w = inr (tt, w') ->
        oldXData w' = Some (PyFloat x) ->
        oldYData w' = Some (PyFloat y) ->
        windowTitle w' = spec_hover_title (rb_SI (ui w)) x y).
Proof.
  intros Hclaim.
  specialize (Hclaim unit idleController idleWindow
                (after_hover hoverEvent 0 0 idleWindow) hoverEvent
                0 (31416 # 10000) idleWindow_reachable
                eq_refl eq_refl eq_refl).
  vm_compute in Hclaim. discriminate Hclaim.
Qed.





(** * Facts about the cycle engine *)

Section EngineFacts.

Variable tbl : PropertyTable.

Local Open Scope Q_scope.

Lemma Qltb_lt a b : Qltb a b = true <-> a < b.
Proof.
  unfold Qltb. rewrite negb_true_iff. split.
  - intros H. apply Qnot_le_lt. intros Hle.
    apply Qle_bool_iff in Hle. congruence.
  - intros H. destruct (Qle_bool b a) eqn:E; [|reflexivity].
    apply Qle_bool_iff in E. exfalso. exact (Qlt_not_le _ _ H E).
Qed.

Lemma Qltb_ge a b : b <= a -> Qltb a b = false.
Proof.
  intros H. unfold Qltb. apply Qle_bool_iff in H. rewrite H. reflexivity.
Qed.

(** The exit state carries the enthalpy it was asked for. *)
Lemma turbineExit_sp_h p sat h2 st2 :
  turbineExit tbl p sat h2 = inr st2 -> sp_h st2 = h2.
Proof.
  unfold turbineExit. destruct (Qltb 1 _).
  - destruct (superheatedAtEnthalpy tbl p h2) as [[[T2 s2] v2]|]; simpl;
      intros H; inversion H; reflexivity.
  - intros H. inversion H. reflexivity.
Qed.


Lemma resolve_steps b st1 satL st2s st2 :
  resolveState1 tbl b = inr st1 ->
  saturationProps tbl (P_L b) = Some satL ->
  isentropicExit tbl (P_L b) satL (sp_s st1) = inr st2s ->
  turbineExit tbl (P_L b) satL
    (actualExitEnthalpy (eta_t b) (sp_h st1) (sp_h st2s)) = inr st2 ->
  resolve tbl b = inr (assemble b st1 st2 (saturatedState (P_L b) satL 0)).
Proof.
  intros H1 HL H2s H2. unfold resolve.
  rewrite H1. simpl. rewrite HL. simpl. rewrite H2s. simpl. rewrite H2.
  reflexivity.
Qed.


Lemma recompute_boundary cs : cs_boundary (fst (recompute tbl cs)) = cs_boundary cs.
Proof. unfold recompute. destruct (resolve tbl (cs_boundary cs)); reflexivity. Qed.

(** ** The turbine correction and the derived terms *)

(** C1: for a valid boundary whose lookups succeed, state 1, the
    saturation row at the low pressure, the isentropic exit 2s and the
    actual exit 2, [recompute] returns and publishes a result with
    h2 = h1 - eta_t * (h1 - h2s), w_t = h1 - h2, q_in = h1 - h4 and
    eta_th = (w_t - w_p) / q_in. *)
Theorem recompute_closed_form (cs : CycleSolver) (st1 st2s st2 : StatePoint)
  (satL : SatProps) :
  let b := cs_boundary cs in
  valid_boundary b ->
  resolveState1 tbl b = inr st1 ->
  saturationProps tbl (P_L b) = Some satL ->
  isentropicExit tbl (P_L b) satL (sp_s st1) = inr st2s ->
  turbineExit tbl (P_L b) satL
    (actualExitEnthalpy (eta_t b) (sp_h st1) (sp_h st2s)) = inr st2 ->
  exists r,
    snd (recompute tbl cs) = inr r
    /\ cs_result (fst (recompute tbl cs)) = Some r
    /\ sp_h (state1 r) = sp_h st1
    /\ sp_h (state2 r) = sp_h st1 - eta_t b * (sp_h st1 - sp_h st2s)
    /\ w_t r = sp_h (state1 r) - sp_h (state2 r)
    /\ q_in r = sp_h (state1 r) - sp_h (state4 r)
    /\ eta_th r = (w_t r - w_p r) / q_in r.
Proof.
  intros b Hvalid H1 HL H2s H2.
  pose proof (resolve_steps b st1 satL st2s st2 H1 HL H2s H2) as Hres.
  exists (assemble b st1 st2 (saturatedState (P_L b) satL 0)).
  unfold recompute. fold b. rewrite Hres. simpl.
  repeat split.
  apply turbineExit_sp_h in H2. exact H2.
Qed.

(** ** Rejected boundaries *)

(** C2: with P_H <= P_L, [setBoundary] fails with
    [InvalidBoundaryError] (pressure ordering) and the solver, its
    stored result included, is what it was. *)
Theorem setBoundary_rejects_pressure_ordering (cs : CycleSolver)
  (b : CycleBoundary) (u : UnitSystem) :
  P_H b <= P_L b ->
  snd (setBoundary tbl cs b u) = inl (InvalidBoundaryError PressureOrdering)
  /\ fst (setBoundary tbl cs b u) = cs
  /\ cs_result (fst (setBoundary tbl cs b u)) = cs_result cs.
Proof.
  intros Hle. unfold setBoundary, validate.
  rewrite (Qltb_ge _ _ Hle). simpl. repeat split.
Qed.

(** ** The efficiency bound *)



(** ** Monotonicity in the turbine efficiency *)


End EngineFacts.

(** * Facts about the plot sampler *)

Section SamplerFacts.

Variable tbl : PropertyTable.
Variable ln : Q -> Q.

Local Open Scope Q_scope.

Lemma scaled_error lg value e : scaled ln lg value = inl e -> e = DomainError.
Proof.
  unfold scaled. destruct lg; [|discriminate].
  destruct (Qle_bool value 0); [|discriminate].
  intros H. inversion H. reflexivity.
Qed.

Lemma scaled_nonpositive value : value <= 0 -> scaled ln true value = inl DomainError.
Proof.
  intros H. unfold scaled. apply Qle_bool_iff in H. rewrite H. reflexivity.
Qed.

(** A point fails with [DomainError] or not at all. *)
Lemma samplePoint_error xv yv logX logY sp e :
  samplePoint ln xv yv logX logY sp = inl e -> e = DomainError.
Proof.
  unfold samplePoint.
  destruct (scaled ln logX (coordinate xv sp)) as [ex|x] eqn:Ex; simpl.
  - intros H. inversion H. subst. exact (scaled_error _ _ _ Ex).
  - destruct (scaled ln logY (coordinate yv sp)) as [ey|y] eqn:Ey; simpl.
    + intros H. inversion H. subst. exact (scaled_error _ _ _ Ey).
    + discriminate.
Qed.

Lemma samplePoint_fails xv yv logX logY sp :
  (logX = true /\ coordinate xv sp <= 0) \/ (logY = true /\ coordinate yv sp <= 0) ->
  samplePoint ln xv yv logX logY sp = inl DomainError.
Proof.
  intros H.
  destruct (samplePoint ln xv yv logX logY sp) as [e|xy] eqn:E.
  - rewrite (samplePoint_error _ _ _ _ _ _ E). reflexivity.
  - exfalso. unfold samplePoint in E.
    destruct H as [[HlX Hx]|[HlY Hy]]; subst.
    + rewrite (scaled_nonpositive _ Hx) in E. discriminate.
    + destruct (scaled ln logX (coordinate xv sp)); cbn [rbind] in E;
        [discriminate|].
      rewrite (scaled_nonpositive _ Hy) in E. discriminate.
Qed.

(** One failing element makes the traversal fail, with the only error
    the elements can raise. *)
Lemma traverse_fails {A B} (f : A -> result B) (err : CoreError) (l : list A) :
  (forall a e, f a = inl e -> e = err) ->
  (exists a, In a l /\ f a = inl err) ->
  traverse f l = inl err.
Proof.
  intros Honly. induction l as [|a l IH]; intros [a0 [Hin Hf]].
  - destruct Hin.
  - simpl. destruct (f a) as [e|b] eqn:Ea; simpl.
    + rewrite (Honly a e Ea). reflexivity.
    + destruct Hin as [Heq|Hin].
      * subst a0. congruence.
      * rewrite IH; [reflexivity | exists a0; split; assumption].
Qed.

(** C6: when the states to plot have been assembled and one of them has
    a zero or negative coordinate on an axis whose log-scale flag is
    set, [sample] returns no sequence: it fails with [DomainError]. *)
Theorem sample_log_of_nonpositive (r : CycleResult) (xAxisVar yAxisVar : AxisVar)
  (logX logY : bool) (states : list StatePoint) :
  requestedStates tbl r xAxisVar yAxisVar = inr states ->
  (logX = true /\ exists sp, In sp states /\ coordinate xAxisVar sp <= 0)
  \/ (logY = true /\ exists sp, In sp states /\ coordinate yAxisVar sp <= 0) ->
  sample tbl ln r xAxisVar yAxisVar logX logY = inl DomainError.
Proof.
  intros Hstates Hbad. unfold sample. rewrite Hstates. simpl.
  apply traverse_fails.
  - intros sp e. apply samplePoint_error.
  - destruct Hbad as [[HlX [sp [Hin Hx]]]|[HlY [sp [Hin Hy]]]];
      exists sp; (split; [exact Hin|]); apply samplePoint_fails; auto.
Qed.

End SamplerFacts.

(** * The engine on concrete data *)

(** The textbook cycle: about 37 percent with an ideal turbine. *)
Example classic_cycle_resolves :
  resolve steamTable (classicBoundary 1) = inr (classicResult 1)
  /\ (37 # 100 < eta_th (classicResult 1) < 38 # 100)%Q.
Proof. split; [reflexivity | split; reflexivity]. Qed.

Lemma classicBoundary_valid : valid_boundary (classicBoundary (85 # 100)).
Proof. repeat split; (reflexivity || discriminate). Qed.

Lemma recompute_closed_form_witness :
  valid_boundary (classicBoundary (85 # 100))
  /\ exists r,
       snd (recompute steamTable (solverAt (classicBoundary (85 # 100)))) = inr r
       /\ cs_result (fst (recompute steamTable (solverAt (classicBoundary (85 # 100)))))
          = Some r
       /\ sp_h (state1 r) = sp_h classic_st1
       /\ sp_h (state2 r)
          = (sp_h classic_st1 - (85 # 100) * (sp_h classic_st1 - sp_h classic_st2s))%Q
       /\ w_t r = (sp_h (state1 r) - sp_h (state2 r))%Q
       /\ q_in r = (sp_h (state1 r) - sp_h (state4 r))%Q
       /\ eta_th r = ((w_t r - w_p r) / q_in r)%Q.
Proof.
  split.
  - exact classicBoundary_valid.
  - apply (recompute_closed_form steamTable (solverAt (classicBoundary (85 # 100)))
             classic_st1 classic_st2s (classic_st2 (85 # 100)) sat_8kPa).
    + exact classicBoundary_valid.
    + reflexivity.
    + reflexivity.
    + reflexivity.
    + reflexivity.
Defined.

Lemma setBoundary_rejects_pressure_ordering_witness :
  (P_H reversedBoundary <= P_L reversedBoundary)%Q
  /\ snd (setBoundary steamTable
            (fst (recompute steamTable (solverAt (classicBoundary 1))))
            reversedBoundary English)
     = inl (InvalidBoundaryError PressureOrdering)
  /\ fst (setBoundary steamTable
            (fst (recompute steamTable (solverAt (classicBoundary 1))))
            reversedBoundary English)
     = fst (recompute steamTable (solverAt (classicBoundary 1)))
  /\ cs_result
       (fst (setBoundary steamTable
               (fst (recompute steamTable (solverAt (classicBoundary 1))))
               reversedBoundary English))
     = cs_result (fst (recompute steamTable (solverAt (classicBoundary 1)))).
Proof.
  split.
  - discriminate.
  - apply (setBoundary_rejects_pressure_ordering steamTable
             (fst (recompute steamTable (solverAt (classicBoundary 1))))
             reversedBoundary English).
    discriminate.
Defined.


(** The wet cycle of the counterexample meets every condition of the
    bound but the last: its turbine delivers less than its pump takes. *)
Example wet_cycle_misses_the_work_condition :
  valid_boundary wetBoundary
  /\ (0 <= vf sat_8kPa)%Q
  /\ (hf sat_8kPa < sp_h wet_st2s)%Q
  /\ (eta_t wetBoundary * (sp_h wet_st1 - sp_h wet_st2s)
      < vf sat_8kPa * (P_H wetBoundary - P_L wetBoundary))%Q.
Proof. repeat split; (reflexivity || discriminate). Qed.



Lemma sample_log_of_nonpositive_witness :
  requestedStates steamTable tripleResult AxS AxH
  = inr [state1 tripleResult; state2 tripleResult; state3 tripleResult;
         state4 tripleResult]
  /\ sample steamTable lnTangent tripleResult AxS AxH true false = inl DomainError.
Proof.
  split.
  - reflexivity.
  - apply (sample_log_of_nonpositive steamTable lnTangent tripleResult AxS AxH
             true false
             [state1 tripleResult; state2 tripleResult; state3 tripleResult;
              state4 tripleResult]).
    + reflexivity.
    + left. split; [reflexivity|].
      exists (state3 tripleResult). split.
      * simpl. auto.
      * discriminate.
Defined.

(** * Sessions: the window under a sequence of user actions *)

Section Sessions.

Context {C : Type} `{ctrl : RankineController C}.

Local Abbreviation Window := (@MainWindow C).

(** The event loop hands the queued user actions to the window one
    after the other; an exception ends the run. *)
Fixpoint run_actions (l : list UserAction) : Py Window unit :=
  match l with
  | [] => ret tt
  | a :: l' => bind (handle a) (fun _ => run_actions l')
  end.

(** The controller methods called, in order, as a trace records them. *)
Definition controller_calls (tr : list Event) : list RCMethod :=
  flat_map (fun e => match e with EvCall m => [m] | _ => [] end) tr.

(** The controller methods a user action is wired to, on widgets [u]. *)
Definition calls_of (a : UserAction) (u : Widgets) : list RCMethod :=
  match a with
  | ClickCalculate => [RC_updateModel]
  | ClickQuality | ClickTHigh => [RC_selectQualityOrTHigh]
  | EditPHigh _ => [RC_setNewPHigh]
  | EditPLow _ => [RC_setNewPLow]
  | ClickSI | ClickEnglish => [RC_updateUnits]
  | SelectXAxis i => if Nat.eqb i (cmb_XAxis u) then [] else [RC_updatePlot]
  | SelectYAxis i => if Nat.eqb i (cmb_YAxis u) then [] else [RC_updatePlot]
  | SetLogX b => if Bool.eqb b (chk_logX u) then [] else [RC_updatePlot]
  | SetLogY b => if Bool.eqb b (chk_logY u) then [] else [RC_updatePlot]
  | MouseMove _ => []
  end.

(** The stored hover coordinates after a user action. *)
Definition stored_x (old : Q) (a : UserAction) : Q :=
  match a with
  | MouseMove event => hover_value (xdata event) old
  | _ => old
  end.

Definition stored_y (old : Q) (a : UserAction) : Q :=
  match a with
  | MouseMove event => hover_value (ydata event) old
  | _ => old
  end.

(** The title the hover handler composes. *)
Definition hover_string (si : bool) (x y : Q) : string :=
  "s: " ++ format_2f x ++ " " ++ sUnit_of si
  ++ ", T: " ++ format_2f y ++ " " ++ TUnit_of si.

(** The window a user action leaves, given the controller state and the
    stored coordinates it found. *)
Definition after_action (a : UserAction) (c : C) (x0 y0 : Q) (w : Window) : Window :=
  let call sg w1 :=
    after_call (fst (method_of (slot_of sg))) (snd (method_of (slot_of sg))) c w1 in
  let edit f := with_ui (f (ui w)) w in
  match a with
  | ClickCalculate => call btn_Calculate_clicked w
  | ClickQuality => call rdo_Quality_clicked (edit (set_rdo_Quality true))
  | ClickTHigh => call rdo_THigh_clicked (edit (set_rdo_Quality false))
  | EditPHigh s => call le_PHigh_editingFinished (edit (set_le_PHigh s))
  | EditPLow s => call le_PLow_editingFinished (edit (set_le_PLow s))
  | ClickSI => call rb_SI_clicked (edit (set_rb_SI true))
  | ClickEnglish => call rb_English_clicked (edit (set_rb_SI false))
  | SelectXAxis i =>
      if Nat.eqb i (cmb_XAxis (ui w)) then w
      else call cmb_XAxis_currentIndexChanged (edit (set_cmb_XAxis i))
  | SelectYAxis i =>
      if Nat.eqb i (cmb_YAxis (ui w)) then w
      else call cmb_YAxis_currentIndexChanged (edit (set_cmb_YAxis i))
  | SetLogX b =>
      if Bool.eqb b (chk_logX (ui w)) then w
      else call chk_logX_toggled (edit (set_chk_logX b))
  | SetLogY b =>
      if Bool.eqb b (chk_logY (ui w)) then w
      else call chk_logY_toggled (edit (set_chk_logY b))
  | MouseMove event => after_hover event x0 y0 w
  end.

Lemma handle_runs a (w : Window) c x0 y0 :
  wired w -> RC w = Some c ->
  oldXData w = Some (PyFloat x0) -> oldYData w = Some (PyFloat y0) ->
  handle a w = inr (tt, after_action a c x0 y0 w).
Proof.
  intros Hw HRC Hx Hy.
  assert (Hset : forall f sg,
             bind (set_widgets f) (fun _ => emit sg) w
             = inr (tt, after_call (fst (method_of (slot_of sg)))
                          (snd (method_of (slot_of sg))) c
                          (with_ui (f (ui w)) w))).
  { intros f sg. unfold bind, set_widgets, modify.
    apply (emit_runs sg (with_ui (f (ui w)) w) c (wired_with_ui _ w Hw) HRC). }
  destruct a; cbn [handle after_action]; try apply Hset.
  - apply (emit_runs _ w c Hw HRC).
  - unfold bind at 1, gets. destruct (Nat.eqb i (cmb_XAxis (ui w)));
      [reflexivity | apply Hset].
  - unfold bind at 1, gets. destruct (Nat.eqb i (cmb_YAxis (ui w)));
      [reflexivity | apply Hset].
  - unfold bind at 1, gets. destruct (Bool.eqb b (chk_logX (ui w)));
      [reflexivity | apply Hset].
  - unfold bind at 1, gets. destruct (Bool.eqb b (chk_logY (ui w)));
      [reflexivity | apply Hset].
  - unfold bind, gets. rewrite (wired_callbacks w Hw).
    cbn [run_callbacks String.eqb Ascii.eqb Bool.eqb run_callback]. unfold bind.
    rewrite (mouseMoveEvent_Canvas_runs event w x0 y0 Hx Hy). reflexivity.
Qed.

Lemma controller_calls_snoc tr e :
  controller_calls (tr ++ [e])
  = (controller_calls tr ++ match e with EvCall m => [m] | _ => [] end)%list.
Proof.
  unfold controller_calls. rewrite flat_map_app. simpl.
  rewrite app_nil_r. reflexivity.
Qed.

Lemma after_action_calls a c x0 y0 (w : Window) :
  controller_calls (trace (after_action a c x0 y0 w))
  = (controller_calls (trace w) ++ calls_of a (ui w))%list.
Proof.
  destruct a; cbn [after_action calls_of];
    try (cbn [after_call log with_RC with_ui trace slot_of method_of fst snd];
         rewrite controller_calls_snoc; reflexivity).
  - destruct (Nat.eqb i (cmb_XAxis (ui w)));
      [rewrite app_nil_r; reflexivity|].
    cbn [after_call log with_RC with_ui trace slot_of method_of fst snd].
    rewrite controller_calls_snoc. reflexivity.
  - destruct (Nat.eqb i (cmb_YAxis (ui w)));
      [rewrite app_nil_r; reflexivity|].
    cbn [after_call log with_RC with_ui trace slot_of method_of fst snd].
    rewrite controller_calls_snoc. reflexivity.
  - destruct (Bool.eqb b (chk_logX (ui w)));
      [rewrite app_nil_r; reflexivity|].
    cbn [after_call log with_RC with_ui trace slot_of method_of fst snd].
    rewrite controller_calls_snoc. reflexivity.
  - destruct (Bool.eqb b (chk_logY (ui w)));
      [rewrite app_nil_r; reflexivity|].
    cbn [after_call log with_RC with_ui trace slot_of method_of fst snd].
    rewrite controller_calls_snoc. reflexivity.
  - unfold after_hover.
    cbn [log with_windowTitle with_oldXData with_oldYData trace].
    rewrite controller_calls_snoc, app_nil_r. reflexivity.
Qed.

Lemma after_action_coordinates a c x0 y0 (w : Window) :
  oldXData w = Some (PyFloat x0) -> oldYData w = Some (PyFloat y0) ->
  oldXData (after_action a c x0 y0 w) = Some (PyFloat (stored_x x0 a))
  /\ oldYData (after_action a c x0 y0 w) = Some (PyFloat (stored_y y0 a)).
Proof.
  intros Hx Hy.
  destruct a; cbn [after_action stored_x stored_y];
    try (split; assumption);
    try (match goal with |- context [if ?t then _ else _] => destruct t end;
         split; assumption).
  split; reflexivity.
Qed.

Lemma after_action_title a c x0 y0 (w : Window) :
  windowTitle (after_action a c x0 y0 w)
  = match a with
    | MouseMove event =>
        hover_string (rb_SI (ui w)) (hover_value (xdata event) x0)
          (hover_value (ydata event) y0)
    | _ => windowTitle w
    end.
Proof.
  destruct a; cbn [after_action]; try reflexivity;
    match goal with |- context [if ?t then _ else _] => destruct t end;
    reflexivity.
Qed.

(** One step from a reachable window, with all that is known of it. *)
Lemma reachable_step a (w : Window) :
  reachable w ->
  exists c x0 y0,
    RC w = Some c
    /\ oldXData w = Some (PyFloat x0)
    /\ oldYData w = Some (PyFloat y0)
    /\ handle a w = inr (tt, after_action a c x0 y0 w)
    /\ reachable (after_action a c x0 y0 w).
Proof.
  intros Hreach. pose proof (reachable_wired w Hreach) as Hw.
  destruct (wired_RC w Hw) as [c HRC].
  destruct (wired_oldX w Hw) as [x0 Hx].
  destruct (wired_oldY w Hw) as [y0 Hy].
  exists c, x0, y0.
  pose proof (handle_runs a w c x0 y0 Hw HRC Hx Hy) as Hrun.
  repeat split; try assumption.
  exact (reach_step w a _ Hreach Hrun).
Qed.

(** A session from a reachable window. *)
Lemma session_runs l : forall (w : Window) x0 y0,
  reachable w ->
  oldXData w = Some (PyFloat x0) -> oldYData w = Some (PyFloat y0) ->
  exists w',
    run_actions l w = inr (tt, w')
    /\ reachable w'
    /\ oldXData w' = Some (PyFloat (fold_left stored_x l x0))
    /\ oldYData w' = Some (PyFloat (fold_left stored_y l y0))
    /\ (List.length (controller_calls (trace w'))
        <= List.length (controller_calls (trace w)) + List.length l)%nat.
Proof.
  induction l as [|a l IH]; intros w x0 y0 Hreach Hx Hy.
  - exists w. simpl. repeat split; try assumption. lia.
  - destruct (reachable_step a w Hreach)
      as (c & x0' & y0' & HRC & Hx' & Hy' & Hrun & Hreach').
    rewrite Hx in Hx'. inversion Hx'. subst x0'.
    rewrite Hy in Hy'. inversion Hy'. subst y0'.
    destruct (after_action_coordinates a c x0 y0 w Hx Hy) as [Hx1 Hy1].
    destruct (IH _ _ _ Hreach' Hx1 Hy1) as (w' & Hrun' & Hr' & Hx2 & Hy2 & Hlen).
    exists w'. cbn [run_actions fold_left]. unfold bind. rewrite Hrun.
    repeat split; try assumption.
    rewrite after_action_calls, length_app in Hlen.
    assert (List.length (calls_of a (ui w)) <= 1)%nat.
    { destruct a; cbn [calls_of];
        try (match goal with |- context [if ?t then _ else _] => destruct t end);
        simpl; lia. }
    simpl. lia.
Qed.

(** ** What each action calls *)

(** On every reachable window a user action returns normally and makes
    the controller calls [AssignSlots] wires it to, and no other: one
    call for a click, a committed pressure edit or a real change of an
    axis or log-scale widget; none for a mouse move or for a selection
    that changes nothing. *)
Theorem action_calls_its_slot (w : Window) (a : UserAction) :
  reachable w ->
  exists w',
    handle a w = inr (tt, w')
    /\ controller_calls (trace w')
       = (controller_calls (trace w) ++ calls_of a (ui w))%list.
Proof.
  intros Hreach.
  destruct (reachable_step a w Hreach) as (c & x0 & y0 & _ & _ & _ & Hrun & _).
  exists (after_action a c x0 y0 w). split; [exact Hrun|].
  apply after_action_calls.
Qed.

(** ** Sessions never raise *)

(** Whatever the widgets' initial values and whatever the user does
    afterwards, [main] followed by the user's actions runs to its end
    without raising, and the controller has been called at most three
    times plus once per action. *)
Theorem session_never_raises (u0 : Widgets) (l : list UserAction) :
  exists w : Window,
    bind main (fun _ => run_actions l) (blank u0) = inr (tt, w)
    /\ (List.length (controller_calls (trace w)) <= 3 + List.length l)%nat.
Proof.
  unfold bind. rewrite main_runs.
  destruct (session_runs l _ 0 0
              (reach_main u0 _ (main_runs u0)) eq_refl eq_refl)
    as (w' & Hrun & _ & _ & _ & Hlen).
  exists w'. split; [exact Hrun|]. exact Hlen.
Qed.

(** ** The stored hover coordinates over a session *)

(** After [main] and any sequence of user actions, each stored hover
    coordinate is the last value that was not [None] among the mouse
    moves of the sequence, and 0.0 when there was none; the other
    actions leave it alone. *)
Theorem hover_coordinates_last_seen (u0 : Widgets) (l : list UserAction) :
  exists w : Window,
    bind main (fun _ => run_actions l) (blank u0) = inr (tt, w)
    /\ oldXData w = Some (PyFloat (fold_left stored_x l 0))
    /\ oldYData w = Some (PyFloat (fold_left stored_y l 0)).
Proof.
  unfold bind. rewrite main_runs.
  destruct (session_runs l _ 0 0
              (reach_main u0 _ (main_runs u0)) eq_refl eq_refl)
    as (w' & Hrun & _ & Hx & Hy & _).
  exists w'. repeat split; assumption.
Qed.

(** ** The title and the stored coordinates *)

(** On every reachable window the title is either the one [main] gave,
    or the hover string of the coordinates the window stores now, with
    the unit suffixes of one of the two unit systems (the one selected
    at the last mouse move: no other action rewrites the title). *)
Theorem title_shows_stored_coordinates (w : Window) :
  reachable w ->
  exists x y,
    oldXData w = Some (PyFloat x)
    /\ oldYData w = Some (PyFloat y)
    /\ (windowTitle w = "Rankine calculator"
        \/ exists si, windowTitle w = hover_string si x y).
Proof.
  induction 1 as [u0 w Hmain | w a w' Hreach IH Hstep].
  - rewrite main_runs in Hmain. inversion Hmain; subst.
    exists 0, 0. repeat split. left. reflexivity.
  - destruct IH as (x & y & Hx & Hy & Htitle).
    destruct (reachable_step a w Hreach)
      as (c & x0 & y0 & _ & Hx' & Hy' & Hrun & _).
    rewrite Hx in Hx'. inversion Hx'. subst x0.
    rewrite Hy in Hy'. inversion Hy'. subst y0.
    rewrite Hrun in Hstep. inversion Hstep. subst w'.
    destruct (after_action_coordinates a c x y w Hx Hy) as [Hx1 Hy1].
    exists (stored_x x a), (stored_y y a).
    repeat split; try assumption.
    rewrite after_action_title.
    destruct a; try exact Htitle.
    right. exists (rb_SI (ui w)). reflexivity.
Qed.

(** ** Handlers run too early *)

(** The slots are connected (line 27) before the controller is created
    (line 43): were any of the eleven signals raised in between, its
    slot would find no [RC] attribute and raise [AttributeError]. *)
Theorem signal_before_controller_raises (u0 : Widgets) (sg : Signal) :
  bind AssignSlots (fun _ => bind MakeCanvas (fun _ => emit sg)) (blank u0)
  = (inl (AttributeError "RC") : PyError + unit * Window).
Proof. destruct sg; reflexivity. Qed.

(** An event that carries both coordinates never makes the hover
    handler read the stored ones: on any window, the constructor run or
    not, it stores the event's coordinates and titles the window with
    them. *)
Theorem hover_with_both_coordinates (w : Window) (qx qy : Q) :
  exists w',
    mouseMoveEvent_Canvas {| xdata := PyFloat qx; ydata := PyFloat qy |} w
    = inr (tt, w')
    /\ oldXData w' = Some (PyFloat qx)
    /\ oldYData w' = Some (PyFloat qy)
    /\ windowTitle w' = hover_string (rb_SI (ui w)) qx qy
    /\ RC w' = RC w
    /\ ui w' = ui w.
Proof.
  exists (after_hover {| xdata := PyFloat qx; ydata := PyFloat qy |} 0 0 w).
  repeat split.
Qed.

(** The handler is registered (line 28) before the stored coordinates
    are assigned (lines 51-52): on a window where neither is assigned
    yet, an event that lacks a coordinate raises [AttributeError] for
    the first coordinate it lacks, x before y. *)
Theorem hover_before_coordinates_raises (w : Window) (event : MouseEvent) :
  oldXData w = None ->
  oldYData w = None ->
  xdata event = PyNone \/ ydata event = PyNone ->
  mouseMoveEvent_Canvas event w
  = inl (AttributeError
           (match xdata event with
            | PyNone => "oldXData"
            | PyFloat _ => "oldYData"
            end)).
Proof.
  destruct event as [xd yd]. simpl. intros Hx Hy Hnone.
  unfold mouseMoveEvent_Canvas, bind, modify, getattr.
  destruct xd as [|qx]; simpl.
  - rewrite Hx. reflexivity.
  - destruct Hnone as [Hc|Hyd]; [discriminate Hc|]. subst yd. simpl.
    rewrite Hy. reflexivity.
Qed.

End Sessions.

(** ** Sessions on concrete data *)

Example session_run :
  option_map (fun w => (windowTitle w, controller_calls (trace w)))
    (match bind (main (ctrl := idleController))
             (fun _ => run_actions (ctrl := idleController)
                          [MouseMove hoverEvent; ClickEnglish;
                                    SetLogX false; SelectYAxis 1])
             (blank designerWidgets) with
     | inr (_, w) => Some w
     | inl _ => None
     end)
  = Some ("s: 0.00 kJ/(kg*K), T: 3.14 C",
          [RC_setNewPHigh; RC_setNewPLow; RC_updateModel;
           RC_updateUnits; RC_updatePlot]).
Proof. reflexivity. Qed.

Lemma action_calls_its_slot_witness :
  reachable (ctrl := idleController) idleWindow
  /\ exists w',
       handle (ctrl := idleController) ClickEnglish idleWindow = inr (tt, w')
       /\ controller_calls (trace w')
          = (controller_calls (trace idleWindow)
             ++ calls_of ClickEnglish (ui idleWindow))%list.
Proof.
  split.
  - exact idleWindow_reachable.
  - apply (action_calls_its_slot (ctrl := idleController) idleWindow ClickEnglish).
    exact idleWindow_reachable.
Defined.

Lemma title_shows_stored_coordinates_witness :
  reachable (ctrl := idleController) idleWindow
  /\ exists x y,
       oldXData idleWindow = Some (PyFloat x)
       /\ oldYData idleWindow = Some (PyFloat y)
       /\ (windowTitle idleWindow = "Rankine calculator"
           \/ exists si, windowTitle idleWindow = hover_string si x y).
Proof.
  split.
  - exact idleWindow_reachable.
  - apply (title_shows_stored_coordinates (ctrl := idleController) idleWindow).
    exact idleWindow_reachable.
Defined.

Lemma hover_before_coordinates_raises_witness :
  mouseMoveEvent_Canvas hoverEvent (blank (C := unit) designerWidgets)
  = inl (AttributeError "oldXData").
Proof.
  apply (hover_before_coordinates_raises (blank (C := unit) designerWidgets)
           hoverEvent).
  - reflexivity.
  - reflexivity.
  - left. reflexivity.
Defined.
